(* Verification development for pytest-mcp: src/pytest_mcp/domain.py.

   The domain module is a set of pydantic models plus two workflow
   functions.  Pydantic's behaviour on these models is written out here as
   plain functions: lax type coercion of JSON input, per-field constraints,
   field validators, the "extra" policy, model validators that run after the
   fields, and JSON-schema generation. *)

From Stdlib Require Import String Ascii List ZArith Bool Lia Permutation.
Import ListNotations.

Local Open Scope Z_scope.

(* ------------------------------------------------------------------------- *)
(** * Results and JSON values *)

(** A computation that either returns a value or raises. *)
Inductive result (A E : Type) : Type :=
| Ok : A -> result A E
| Err : E -> result A E.
Arguments Ok {A E} _.
Arguments Err {A E} _.

Definition is_ok {A E} (r : result A E) : bool :=
  match r with Ok _ => true | Err _ => false end.

Definition is_err {A E} (r : result A E) : bool := negb (is_ok r).

Local Set Warnings "-register-all".

(** JSON values as they arrive in an MCP [arguments] object.  Objects are
    association lists: a Python dict keeps insertion order. *)
Inductive json : Type :=
| JNull : json
| JBool : bool -> json
| JInt : Z -> json
| JStr : string -> json
| JList : list json -> json
| JObj : list (string * json) -> json.

(** [d.get(k)] on a dict given as an association list. *)
Fixpoint lookup {A} (k : string) (d : list (string * A)) : option A :=
  match d with
  | [] => None
  | (k', v) :: d' => if String.eqb k k' then Some v else lookup k d'
  end.

(** [d.pop(k, None)]: the dict without key [k]. *)
Definition remove_key {A} (k : string) (d : list (string * A)) : list (string * A) :=
  filter (fun kv => negb (String.eqb (fst kv) k)) d.

(* ------------------------------------------------------------------------- *)
(** * Handshake: ProtocolVersion, ServerInfo, ServerCapabilities,
      ProtocolError and initialize_server *)

Module Handshake.

Record ProtocolError := mkProtocolError {
  field : string;
  received_value : string;
  supported_version : string;
  detail : string
}.

Record ProtocolVersion := mkProtocolVersion { value : string }.

Record ServerInfo := mkServerInfo { name : string; version : string }.

Record ServerCapabilities := mkServerCapabilities {
  tools : bool;
  resources : bool
}.

(** [ProtocolVersion.validate_supported_version]: the field validator;
    raising is [Err] carrying the ValueError's message. *)
Definition validate_supported_version (v : string) : result string string :=
  let supported := "2025-03-26"%string in
  if negb (String.eqb v supported) then
    Err ("Protocol version " ++ v ++ " not supported. "
         ++ "Please retry initialization with supported version "
         ++ supported ++ ".")%string
  else Ok v.

(** [ProtocolVersion(value=v)]: construction runs the field validator. *)
Definition make_protocol_version (v : string) : result ProtocolVersion string :=
  match validate_supported_version v with
  | Ok v' => Ok (mkProtocolVersion v')
  | Err m => Err m
  end.

(** [initialize_server]: a raised [ProtocolValidationError] is [Err]
    carrying its [protocol_error]. *)
Definition initialize_server (protocol_version : string)
  : result (ProtocolVersion * ServerInfo * ServerCapabilities) ProtocolError :=
  match make_protocol_version protocol_version with
  | Err _ =>
      Err (mkProtocolError "protocolVersion" protocol_version "2025-03-26"
             ("Protocol version not supported. "
              ++ "Please retry initialization with supported version.")%string)
  | Ok validated_version =>
      let server_info := mkServerInfo "pytest-mcp" "0.1.0" in
      let capabilities := mkServerCapabilities true true in
      Ok (validated_version, server_info, capabilities)
  end.

End Handshake.

(* ------------------------------------------------------------------------- *)
(** * Pydantic's lax coercions, as applied to JSON input *)

Module Coerce.

Definition digit_value (c : ascii) : option Z :=
  let n := nat_of_ascii c in
  if ((48 <=? n) && (n <=? 57))%nat then Some (Z.of_nat (n - 48)) else None.

Fixpoint digits_aux (s : string) (acc : Z) : option Z :=
  match s with
  | EmptyString => Some acc
  | String c r =>
      match digit_value c with
      | Some d => digits_aux r (acc * 10 + d)
      | None => None
      end
  end.

(** A non-empty run of decimal digits. *)
Definition digits (s : string) : option Z :=
  match s with
  | EmptyString => None
  | _ => digits_aux s 0
  end.

Definition is_space (c : ascii) : bool :=
  let n := nat_of_ascii c in
  ((n =? 32) || (n =? 9) || (n =? 10) || (n =? 13))%nat.

Fixpoint strip_leading (s : string) : string :=
  match s with
  | String c r => if is_space c then strip_leading r else s
  | EmptyString => EmptyString
  end.

Definition rev_string (s : string) : string :=
  string_of_list_ascii (rev (list_ascii_of_string s)).

(** [str.strip()] *)
Definition strip (s : string) : string :=
  rev_string (strip_leading (rev_string (strip_leading s))).

(** Lax [str -> int]: surrounding white space, an optional sign, then
    decimal digits. *)
Definition str_as_int (s : string) : option Z :=
  match strip s with
  | String "-" r => option_map Z.opp (digits r)
  | String "+" r => digits r
  | t => digits t
  end.

(** Lax [int] input: integers, booleans ([True] is [1]) and integer strings. *)
Definition as_int (v : json) : option Z :=
  match v with
  | JInt z => Some z
  | JBool b => Some (if b then 1 else 0)
  | JStr s => str_as_int s
  | _ => None
  end.

Definition lower_ascii (c : ascii) : ascii :=
  let n := nat_of_ascii c in
  if ((65 <=? n) && (n <=? 90))%nat then ascii_of_nat (n + 32) else c.

Fixpoint lower (s : string) : string :=
  match s with
  | EmptyString => EmptyString
  | String c r => String (lower_ascii c) (lower r)
  end.

Definition in_strings (s : string) (l : list string) : bool :=
  existsb (String.eqb s) l.

(** Lax [str -> bool], case-insensitive. *)
Definition str_as_bool (s : string) : option bool :=
  let t := lower s in
  if in_strings t ["0"; "off"; "f"; "false"; "n"; "no"]%string then Some false
  else if in_strings t ["1"; "on"; "t"; "true"; "y"; "yes"]%string then Some true
  else None.

(** Lax [bool] input: booleans, the integers 0 and 1, and the usual strings. *)
Definition as_bool (v : json) : option bool :=
  match v with
  | JBool b => Some b
  | JInt z => if z =? 0 then Some false else if z =? 1 then Some true else None
  | JStr s => str_as_bool s
  | _ => None
  end.

End Coerce.

(* ------------------------------------------------------------------------- *)
(** * Model validation: fields, field validators, extra keys *)

Module Pydantic.
Import Coerce.

Inductive loc_item := LField (s : string) | LIndex (n : nat).

(** One entry of a [ValidationError]: location, error type, message and the
    constraint bound where the message refers to one. *)
Record ValErr := mkValErr {
  err_loc : list loc_item;
  err_type : string;
  err_msg : string;
  err_ctx : option Z
}.

(** The annotated type of a field; every field of this module is
    [T | None = None], [None] standing for an absent value. *)
Inductive FieldKind :=
| KStrList                               (* list[str] | None *)
| KStr                                   (* str | None *)
| KInt (ge : option Z) (le : option Z)   (* int | None, Field(ge=.., le=..) *)
| KBool.                                 (* bool | None *)

(** Validated field values. *)
Inductive pval :=
| PNone
| PStrList (l : list string)
| PStr (s : string)
| PInt (z : Z)
| PBool (b : bool).

Record Field := mkField {
  f_name : string;
  f_kind : FieldKind;
  f_description : string;
  (* a [@field_validator] in its default "after" mode; a raised ValueError
     is [Err] carrying its message *)
  f_after : option (pval -> result pval string)
}.

(** The error is located at field [n] (or inside it). *)
Definition at_field (n : string) (e : ValErr) : Prop :=
  hd_error (err_loc e) = Some (LField n).

Definition err1 (name : string) (ty msg : string) : list ValErr :=
  [mkValErr [LField name] ty msg None].

(** [list[str]]: one [string_type] error per offending element. *)
Fixpoint str_items (name : string) (i : nat) (l : list json)
  : list string * list ValErr :=
  match l with
  | [] => ([], [])
  | x :: l' =>
      let '(ok, errs) := str_items name (S i) l' in
      match x with
      | JStr s => (s :: ok, errs)
      | _ => (ok, mkValErr [LField name; LIndex i] "string_type"
                    "Input should be a valid string" None :: errs)
      end
  end.

(** The positions of the non-string elements of a JSON list, counted from
    [i]. *)
Fixpoint nonstring_indices (i : nat) (l : list json) : list nat :=
  match l with
  | [] => []
  | JStr _ :: l' => nonstring_indices (S i) l'
  | _ :: l' => i :: nonstring_indices (S i) l'
  end.

Definition check_int (name : string) (ge le : option Z) (z : Z)
  : result pval (list ValErr) :=
  match le with
  | Some b => if b <? z then
                Err [mkValErr [LField name] "less_than_equal"
                       "Input should be less than or equal to" (Some b)]
              else
                match ge with
                | Some a => if z <? a then
                              Err [mkValErr [LField name] "greater_than_equal"
                                     "Input should be greater than or equal to" (Some a)]
                            else Ok (PInt z)
                | None => Ok (PInt z)
                end
  | None =>
      match ge with
      | Some a => if z <? a then
                    Err [mkValErr [LField name] "greater_than_equal"
                           "Input should be greater than or equal to" (Some a)]
                  else Ok (PInt z)
      | None => Ok (PInt z)
      end
  end.

(** Type validation of one supplied value against the field's annotation. *)
Definition validate_kind (name : string) (k : FieldKind) (v : json)
  : result pval (list ValErr) :=
  match v with
  | JNull => Ok PNone
  | _ =>
      match k with
      | KStr =>
          match v with
          | JStr s => Ok (PStr s)
          | _ => Err (err1 name "string_type" "Input should be a valid string")
          end
      | KStrList =>
          match v with
          | JList l =>
              match str_items name 0 l with
              | (ok, []) => Ok (PStrList ok)
              | (_, errs) => Err errs
              end
          | _ => Err (err1 name "list_type" "Input should be a valid list")
          end
      | KBool =>
          match as_bool v with
          | Some b => Ok (PBool b)
          | None => Err (err1 name "bool_parsing"
                           "Input should be a valid boolean, unable to interpret input")
          end
      | KInt ge le =>
          match as_int v with
          | Some z => check_int name ge le z
          | None => Err (err1 name "int_parsing"
                           "Input should be a valid integer, unable to parse string as an integer")
          end
      end
  end.

(** A supplied field: type validation, then its field validator. *)
Definition validate_field (f : Field) (v : json) : result pval (list ValErr) :=
  match validate_kind (f_name f) (f_kind f) v with
  | Err e => Err e
  | Ok pv =>
      match f_after f with
      | None => Ok pv
      | Some g =>
          match g pv with
          | Ok pv' => Ok pv'
          | Err m => Err (err1 (f_name f) "value_error" ("Value error, " ++ m))
          end
      end
  end.

(** An absent field takes its default [None]; validators do not run on
    defaults. *)
Definition field_result (f : Field) (payload : list (string * json))
  : result pval (list ValErr) :=
  match lookup (f_name f) payload with
  | None => Ok PNone
  | Some v => validate_field f v
  end.

(** All fields are validated, in declaration order, and their errors
    collected. *)
Fixpoint collect (fs : list Field) (payload : list (string * json))
  : list (string * pval) * list ValErr :=
  match fs with
  | [] => ([], [])
  | f :: fs' =>
      let '(vals, errs) := collect fs' payload in
      match field_result f payload with
      | Ok pv => ((f_name f, pv) :: vals, errs)
      | Err e => (vals, e ++ errs)
      end
  end.

(** [extra="forbid"]: one [extra_forbidden] error per undeclared key. *)
Fixpoint extra_errors (names : list string) (payload : list (string * json))
  : list ValErr :=
  match payload with
  | [] => []
  | (k, _) :: p' =>
      if in_strings k names then extra_errors names p'
      else mkValErr [LField k] "extra_forbidden" "Extra inputs are not permitted" None
           :: extra_errors names p'
  end.

Record ModelClass := mkModelClass {
  mc_title : string;
  mc_fields : list Field;
  mc_extra_forbid : bool
}.

Definition field_names (m : ModelClass) : list string := map f_name (mc_fields m).

(** The model-fields stage of [Model.model_validate(payload)]. *)
Definition validate_fields (m : ModelClass) (payload : list (string * json))
  : result (list (string * pval)) (list ValErr) :=
  let '(vals, errs) := collect (mc_fields m) payload in
  let extra := if mc_extra_forbid m then extra_errors (field_names m) payload else [] in
  match errs ++ extra with
  | [] => Ok vals
  | all => Err all
  end.

End Pydantic.

(* ------------------------------------------------------------------------- *)
(** * [pathlib.PurePosixPath(v).parts] *)

Module PosixPath.

(** [s.split("/")]: always at least one piece. *)
Fixpoint split_on (c : ascii) (s : string) : list string :=
  match s with
  | EmptyString => [EmptyString]
  | String a r =>
      if Ascii.eqb a c then EmptyString :: split_on c r
      else match split_on c r with
           | [] => [String a EmptyString]
           | x :: xs => String a x :: xs
           end
  end.

(** [posixpath.splitroot] without the drive: (root, rest).
    [if p[:1] != sep: ('', p)] / [elif p[1:2] != sep or p[2:3] == sep:
    (sep, p[1:])] / [else: (p[:2], p[2:])]. *)
Definition splitroot (p : string) : string * string :=
  match p with
  | EmptyString => (EmptyString, p)
  | String a r =>
      if negb (Ascii.eqb a "/") then (EmptyString, p)
      else
        match r with
        | EmptyString => ("/"%string, r)
        | String b r2 =>
            if negb (Ascii.eqb b "/") then ("/"%string, r)
            else
              match r2 with
              | String c _ => if Ascii.eqb c "/" then ("/"%string, r) else ("//"%string, r2)
              | EmptyString => ("//"%string, r2)
              end
        end
  end.

(** [PurePath._parse_path] and [parts]: the root if any, then the
    non-empty pieces other than ["."]. *)
Definition parts (p : string) : list string :=
  let '(root, rel) := splitroot p in
  let parsed := filter (fun x => negb (String.eqb x "") && negb (String.eqb x "."))
                       (split_on "/" rel) in
  if String.eqb root "" then parsed else root :: parsed.

End PosixPath.

(* ------------------------------------------------------------------------- *)
(** * ExecuteTestsParams, DiscoverTestsParams, Tool, list_tools *)

Module Domain.
Import Coerce Pydantic.
Local Open Scope string_scope.

Definition node_ids_field : Field := mkField "node_ids" KStrList
  "Specific test node IDs to execute (e.g., 'tests/test_user.py::test_login')" None.
Definition markers_field : Field := mkField "markers" KStr
  "Pytest marker expression for filtering (e.g., 'not slow and integration')" None.
Definition keywords_field : Field := mkField "keywords" KStr
  "Keyword expression for test name matching (e.g., 'test_user')" None.
Definition verbosity_field : Field := mkField "verbosity" (KInt (Some (-2)) (Some 2))
  "Output verbosity level: -2 (quietest) to 2 (most verbose)" None.
Definition failfast_field : Field := mkField "failfast" KBool
  "Stop execution on first failure" None.
Definition maxfail_field : Field := mkField "maxfail" (KInt (Some 1) None)
  "Stop execution after N failures" None.
Definition show_capture_field : Field := mkField "show_capture" KBool
  "Include captured stdout/stderr in test output" None.
Definition timeout_field : Field := mkField "timeout" (KInt (Some 1) None)
  "Execution timeout in seconds" None.

Definition ExecuteTestsParams_fields : list Field :=
  [node_ids_field; markers_field; keywords_field; verbosity_field;
   failfast_field; maxfail_field; show_capture_field; timeout_field].

(** [model_config = {"frozen": True, "extra": "forbid"}] *)
Definition ExecuteTestsParams_class : ModelClass :=
  mkModelClass "ExecuteTestsParams" ExecuteTestsParams_fields true.

Record ExecuteTestsParams := mkExecuteTestsParams {
  node_ids : option (list string);
  markers : option string;
  keywords : option string;
  verbosity : option Z;
  failfast : option bool;
  maxfail : option Z;
  show_capture : option bool;
  timeout : option Z
}.

Definition get_strlist (k : string) (vals : list (string * pval)) : option (list string) :=
  match lookup k vals with Some (PStrList l) => Some l | _ => None end.
Definition get_str (k : string) (vals : list (string * pval)) : option string :=
  match lookup k vals with Some (PStr s) => Some s | _ => None end.
Definition get_int (k : string) (vals : list (string * pval)) : option Z :=
  match lookup k vals with Some (PInt z) => Some z | _ => None end.
Definition get_bool (k : string) (vals : list (string * pval)) : option bool :=
  match lookup k vals with Some (PBool b) => Some b | _ => None end.

(** The instance built from the validated field values. *)
Definition build_execute (vals : list (string * pval)) : ExecuteTestsParams :=
  mkExecuteTestsParams
    (get_strlist "node_ids" vals) (get_str "markers" vals) (get_str "keywords" vals)
    (get_int "verbosity" vals) (get_bool "failfast" vals) (get_int "maxfail" vals)
    (get_bool "show_capture" vals) (get_int "timeout" vals).

(** [x is not None] *)
Definition is_not_none {A} (x : option A) : bool :=
  match x with Some _ => true | None => false end.

(** The error of a [@model_validator] raising ValueError: it has an empty
    location. *)
Definition exclusive_error : ValErr :=
  mkValErr [] "value_error"
    ("Value error, Parameters 'failfast' and 'maxfail' are mutually exclusive. "
     ++ "Specify only one to control test execution stopping behavior.") None.

(** [ExecuteTestsParams.validate_failfast_maxfail_exclusive] *)
Definition validate_failfast_maxfail_exclusive (self : ExecuteTestsParams)
  : result ExecuteTestsParams (list ValErr) :=
  if is_not_none (failfast self) && is_not_none (maxfail self) then Err [exclusive_error]
  else Ok self.

(** [ExecuteTestsParams.model_validate(payload)]: a [mode="after"] model
    validator runs only once every field has validated. *)
Definition model_validate_execute (payload : list (string * json))
  : result ExecuteTestsParams (list ValErr) :=
  match validate_fields ExecuteTestsParams_class payload with
  | Err e => Err e
  | Ok vals => validate_failfast_maxfail_exclusive (build_execute vals)
  end.

(** The message of [DiscoverTestsParams.validate_no_path_traversal]. *)
Definition traversal_message (v : string) : string :=
  ("Path traversal not allowed: '" ++ v ++ "' contains '..' sequences. "
  ++ "Specify paths within the project boundary only.")%string.

(** [DiscoverTestsParams.validate_no_path_traversal] *)
Definition validate_no_path_traversal (v : pval) : result pval string :=
  match v with
  | PNone => Ok v
  | PStr s => if in_strings ".." (PosixPath.parts s) then Err (traversal_message s)
              else Ok v
  | _ => Ok v
  end.

Definition path_field : Field := mkField "path" KStr
  "Directory or file path to discover tests within (default: project root)"
  (Some validate_no_path_traversal).
Definition pattern_field : Field := mkField "pattern" KStr
  "Test file pattern (default: 'test_*.py' or '*_test.py')" None.

Definition DiscoverTestsParams_fields : list Field := [path_field; pattern_field].

Definition DiscoverTestsParams_class : ModelClass :=
  mkModelClass "DiscoverTestsParams" DiscoverTestsParams_fields true.

Record DiscoverTestsParams := mkDiscoverTestsParams {
  path : option string;
  pattern : option string
}.

Definition model_validate_discover (payload : list (string * json))
  : result DiscoverTestsParams (list ValErr) :=
  match validate_fields DiscoverTestsParams_class payload with
  | Err e => Err e
  | Ok vals => Ok (mkDiscoverTestsParams (get_str "path" vals) (get_str "pattern" vals))
  end.

(** [ExecuteTestsParams.model_dump(mode="json")]: every field, in
    declaration order, [None] as null. *)
Definition json_of_str (o : option string) : json :=
  match o with Some s => JStr s | None => JNull end.
Definition json_of_int (o : option Z) : json :=
  match o with Some z => JInt z | None => JNull end.
Definition json_of_bool (o : option bool) : json :=
  match o with Some b => JBool b | None => JNull end.

Definition model_dump_execute (p : ExecuteTestsParams) : list (string * json) :=
  [("node_ids", match node_ids p with Some l => JList (map JStr l) | None => JNull end);
   ("markers", json_of_str (markers p));
   ("keywords", json_of_str (keywords p));
   ("verbosity", json_of_int (verbosity p));
   ("failfast", json_of_bool (failfast p));
   ("maxfail", json_of_int (maxfail p));
   ("show_capture", json_of_bool (show_capture p));
   ("timeout", json_of_int (timeout p))].

Definition model_dump_discover (p : DiscoverTestsParams) : list (string * json) :=
  [("path", json_of_str (path p)); ("pattern", json_of_str (pattern p))].

(** What the field constraints ([ge], [le]) and the model validator of
    ExecuteTestsParams require of an instance. *)
Definition execute_invariant (p : ExecuteTestsParams) : Prop :=
  (forall z, verbosity p = Some z -> (-2 <= z <= 2)%Z) /\
  (forall z, maxfail p = Some z -> (1 <= z)%Z) /\
  (forall z, timeout p = Some z -> (1 <= z)%Z) /\
  (failfast p = None \/ maxfail p = None).

(* JSON schema generation: [Model.model_json_schema()] *)

Definition is_letter (c : ascii) : bool :=
  let n := nat_of_ascii c in
  (((65 <=? n) && (n <=? 90)) || ((97 <=? n) && (n <=? 122)))%nat.

Definition upper_ascii (c : ascii) : ascii :=
  let n := nat_of_ascii c in
  if ((97 <=? n) && (n <=? 122))%nat then ascii_of_nat (n - 32) else c.

(** [str.title()] on ASCII text. *)
Fixpoint title_case (prev_letter : bool) (s : string) : string :=
  match s with
  | EmptyString => EmptyString
  | String c r =>
      if is_letter c then
        String (if prev_letter then lower_ascii c else upper_ascii c) (title_case true r)
      else String c (title_case false r)
  end.

Fixpoint underscores_to_spaces (s : string) : string :=
  match s with
  | EmptyString => EmptyString
  | String c r =>
      String (if Ascii.eqb c "_" then " "%char else c) (underscores_to_spaces r)
  end.

(** A field's default title: [name.title().replace("_", " ")]. *)
Definition field_title (name : string) : string :=
  underscores_to_spaces (title_case false name).

Definition kind_schema (k : FieldKind) : json :=
  match k with
  | KStrList => JObj [("items", JObj [("type", JStr "string")]); ("type", JStr "array")]
  | KStr => JObj [("type", JStr "string")]
  | KBool => JObj [("type", JStr "boolean")]
  | KInt ge le =>
      JObj (app (match le with Some b => [("maximum"%string, JInt b)] | None => [] end)
           (app (match ge with Some a => [("minimum"%string, JInt a)] | None => [] end)
                [("type"%string, JStr "integer")]))
  end%string.

(** [T | None = None] with a description. *)
Definition field_schema (f : Field) : json :=
  JObj [("anyOf", JList [kind_schema (f_kind f); JObj [("type", JStr "null")]]);
        ("default", JNull);
        ("description", JStr (f_description f));
        ("title", JStr (field_title (f_name f)))]%string.

(** [extra="forbid"] adds [additionalProperties: false]. *)
Definition model_json_schema (m : ModelClass) : list (string * json) :=
  app (if mc_extra_forbid m then [("additionalProperties"%string, JBool false)] else [])
      [("properties", JObj (map (fun f => (f_name f, field_schema f)) (mc_fields m)));
       ("title", JStr (mc_title m));
       ("type", JStr "object")]%string.

(** [Tool]: the schema is a [dict[str, Any]]. *)
Record Tool := mkTool {
  name : string;
  description : string;
  inputSchema : list (string * json)
}.

(** [list_tools] *)
Definition list_tools : list Tool := [
  mkTool "execute_tests" "Execute pytest tests with filtering and output options"
    (model_json_schema ExecuteTestsParams_class);
  mkTool "discover_tests" "Discover available tests in the project"
    (model_json_schema DiscoverTestsParams_class)
]%string.

End Domain.

(* ------------------------------------------------------------------------- *)
(** * The execute workflow *)

Module Execute.
Import Pydantic Domain.

(** Modelled from the spec: [TestOutcome], [TestResult], [ExecutionSummary]
    and [ExecuteTestsResponse] of the domain module (imported by the tests,
    absent from the sources), as listed in the spec's data model.  Durations
    are kept in whole milliseconds. *)
Inductive TestOutcome := Passed | Failed | Skipped | Error.

Definition outcome_eqb (a b : TestOutcome) : bool :=
  match a, b with
  | Passed, Passed | Failed, Failed | Skipped, Skipped | Error, Error => true
  | _, _ => false
  end.

Record TestResult := mkTestResult {
  node_id : string;
  outcome : TestOutcome;
  message : option string;
  duration : option nat
}.

Record ExecutionSummary := mkExecutionSummary {
  total : nat;
  passed : nat;
  failed : nat;
  errors : nat;
  skipped : nat;
  summary_duration : nat
}.

Record ExecuteTestsResponse := mkExecuteTestsResponse {
  exit_code : Z;
  summary : ExecutionSummary;
  tests : list TestResult;
  text_output : string
}.

(** Modelled from the spec: one per-test record of the runner's report, with
    the captured failure detail (traceback and assertion text). *)
Record ReportEntry := mkReportEntry {
  re_node_id : string;
  re_outcome : TestOutcome;
  re_failure_detail : string;
  re_duration : nat
}.

Record Report := mkReport {
  entries : list ReportEntry;
  report_duration : nat
}.

(** Modelled from the spec: what the process executor yields. *)
Inductive ProcessOutcome :=
| Completed (code : Z) (stdout stderr : string)
| TimedOut
| LaunchFailed.

(** Modelled from the spec: the failure taxonomy of the execute operation. *)
Inductive ExecuteError :=
| ValidationError (errs : list ValErr)
| ProcessLaunchError
| ExecutionTimeoutError
| ParseError (raw : string).

Section Workflow.

(** The command builder, the process executor and the report reader are
    the external collaborators: any behaviour of theirs is allowed. *)
Variable build_args : ExecuteTestsParams -> list string.
Variable run_process : list string -> option Z -> ProcessOutcome.
Variable parse_report : string -> string -> option Report.

(** Modelled from the spec: a failed or errored test carries a message
    derived from the captured failure detail; other tests carry none. *)
Definition to_test_result (e : ReportEntry) : TestResult :=
  mkTestResult (re_node_id e) (re_outcome e)
    (match re_outcome e with
     | Failed | Error => Some (re_failure_detail e)
     | Passed | Skipped => None
     end)
    (Some (re_duration e)).

Definition count_outcome (o : TestOutcome) (ts : list TestResult) : nat :=
  length (filter (fun t => outcome_eqb (outcome t) o) ts).

(** Modelled from the spec: the summary counts the parsed results. *)
Definition summarize (ts : list TestResult) (d : nat) : ExecutionSummary :=
  mkExecutionSummary (length ts) (count_outcome Passed ts) (count_outcome Failed ts)
    (count_outcome Error ts) (count_outcome Skipped ts) d.

(** Modelled from the spec: the workflow [execute_tests(params)]: run, then
    parse; a timeout, a launch failure or unparseable output is an error,
    never a response with made-up counts; the exit code is passed through. *)
Definition execute_tests (params : ExecuteTestsParams)
  : result ExecuteTestsResponse ExecuteError :=
  match run_process (build_args params) (timeout params) with
  | LaunchFailed => Err ProcessLaunchError
  | TimedOut => Err ExecutionTimeoutError
  | Completed code out err =>
      match parse_report out err with
      | None => Err (ParseError (out ++ err))
      | Some r =>
          let ts := map to_test_result (entries r) in
          Ok (mkExecuteTestsResponse code (summarize ts (report_duration r)) ts out)
      end
  end.

(** The execute operation: validate the payload, then run the workflow
    (as the [execute_tests] tool handler of main.py does). *)
Definition execute (arguments : list (string * json))
  : result ExecuteTestsResponse ExecuteError :=
  match model_validate_execute arguments with
  | Err e => Err (ValidationError e)
  | Ok params => execute_tests params
  end.

End Workflow.

End Execute.

(* ------------------------------------------------------------------------- *)
(** * A concrete run of the external collaborators *)

Module Sample.
Import Execute.
Local Open Scope string_scope.

Definition sample_args (_ : Domain.ExecuteTestsParams) : list string :=
  ["tests/fixtures/sample_tests/"].

(** Two passing tests and one failing one, as in the fixture directory. *)
Definition sample_report : Report :=
  mkReport
    [mkReportEntry "tests/fixtures/sample_tests/test_sample.py::test_passing" Passed "" 1;
     mkReportEntry "tests/fixtures/sample_tests/test_sample.py::test_another_passing"
       Passed "" 1;
     mkReportEntry "tests/fixtures/sample_tests/test_sample.py::test_failing" Failed
       "assert 1 == 2" 2]
    4.

Definition sample_run (_ : list string) (_ : option Z) : ProcessOutcome :=
  Completed 1 "3 collected: 2 passed, 1 failed" "".

Definition sample_parse (_ _ : string) : option Report := Some sample_report.

End Sample.

(* ========================================================================= *)
(** * Properties *)

Module Proofs.
Import Coerce Pydantic Domain.
Local Open Scope string_scope.

(** C4: the handshake succeeds exactly on the literal "2025-03-26", and then
    returns that version with the server's info and capabilities; on any
    other string it fails with a ProtocolError whose received_value is that
    string and whose supported_version is "2025-03-26". *)
Theorem initialize_server_exact_version (v : string) :
  is_ok (Handshake.initialize_server v) = String.eqb v "2025-03-26" /\
  match Handshake.initialize_server v with
  | Ok (pv, si, sc) =>
      v = "2025-03-26" /\ pv = Handshake.mkProtocolVersion "2025-03-26" /\
      si = Handshake.mkServerInfo "pytest-mcp" "0.1.0" /\
      sc = Handshake.mkServerCapabilities true true
  | Err pe =>
      v <> "2025-03-26" /\ Handshake.received_value pe = v /\
      Handshake.supported_version pe = "2025-03-26" /\
      Handshake.field pe = "protocolVersion"
  end.
Proof.
  unfold Handshake.initialize_server, Handshake.make_protocol_version,
    Handshake.validate_supported_version.
  destruct (String.eqb_spec v "2025-03-26") as [-> | Hne]; simpl.
  - repeat split.
  - repeat split; assumption.
Qed.

(** C8: the execute tool's inputSchema has as properties keys exactly the
    eight declared fields, and additionalProperties false. *)
Theorem execute_schema_closed :
  match find (fun t => String.eqb (name t) "execute_tests") list_tools with
  | Some t =>
      (exists props,
          lookup "properties" (inputSchema t) = Some (JObj props) /\
          map fst props = ["node_ids"; "markers"; "keywords"; "verbosity";
                           "failfast"; "maxfail"; "show_capture"; "timeout"]) /\
      lookup "additionalProperties" (inputSchema t) = Some (JBool false)
  | None => False
  end.
Proof.
  simpl. split; [eexists; split; reflexivity | reflexivity].
Qed.

(** C9: list_tools is the fixed sequence of two tools, execute_tests then
    discover_tests, with distinct names, non-empty descriptions and an
    inputSchema each. *)
Theorem list_tools_catalog :
  length list_tools = 2%nat /\
  map name list_tools = ["execute_tests"; "discover_tests"] /\
  NoDup (map name list_tools) /\
  Forall (fun t => description t <> "" /\ inputSchema t <> []) list_tools.
Proof.
  split; [reflexivity |].
  split; [reflexivity |].
  split.
  - simpl. constructor.
    + intros [H | []]. discriminate H.
    + constructor; [intros [] | constructor].
  - repeat constructor; discriminate.
Qed.

(* Path segments *)

Lemma string_app_assoc (a b c : string) : (a ++ b) ++ c = a ++ (b ++ c).
Proof. induction a as [| x a IH]; simpl; [reflexivity | rewrite IH; reflexivity]. Qed.

Lemma in_strings_In (x : string) (l : list string) : in_strings x l = true <-> In x l.
Proof.
  unfold in_strings. rewrite existsb_exists. split.
  - intros [y [Hy Heq]]. apply String.eqb_eq in Heq. subst. exact Hy.
  - intros H. exists x. split; [exact H | apply String.eqb_refl].
Qed.

Lemma split_on_sep (c : ascii) (r : string) :
  PosixPath.split_on c (String c r) = "" :: PosixPath.split_on c r.
Proof. simpl. rewrite Ascii.eqb_refl. reflexivity. Qed.

(** The root only ever stands for leading separators. *)
Lemma splitroot_split (v : string) :
  exists k, PosixPath.split_on "/" v
            = app (repeat "" k) (PosixPath.split_on "/" (snd (PosixPath.splitroot v))) /\
           (fst (PosixPath.splitroot v) = "" \/ fst (PosixPath.splitroot v) = "/" \/
            fst (PosixPath.splitroot v) = "//").
Proof.
  destruct v as [| a r].
  - exists 0%nat. simpl. auto.
  - simpl PosixPath.splitroot.
    destruct (Ascii.eqb_spec a "/") as [-> | Ha]; simpl negb; cbv iota.
    + destruct r as [| b r2].
      * exists 1%nat. simpl. auto.
      * destruct (Ascii.eqb_spec b "/") as [-> | Hb]; simpl negb; cbv iota.
        -- destruct r2 as [| c r3].
           ++ exists 2%nat. rewrite !split_on_sep. simpl. auto.
           ++ destruct (Ascii.eqb_spec c "/") as [-> | Hc].
              ** exists 1%nat. rewrite split_on_sep. simpl. auto.
              ** exists 2%nat. rewrite !split_on_sep. simpl. auto.
        -- exists 1%nat. rewrite split_on_sep. simpl. auto.
    + exists 0%nat. simpl. auto.
Qed.

(** ".." is among [Path(v).parts] exactly when it is one of the
    "/"-separated segments of [v]. *)
Lemma parts_dotdot (v : string) :
  in_strings ".." (PosixPath.parts v) = true <-> In ".." (PosixPath.split_on "/" v).
Proof.
  rewrite in_strings_In. unfold PosixPath.parts.
  destruct (splitroot_split v) as [k [Hsplit Hroot]].
  destruct (PosixPath.splitroot v) as [root rel]. simpl in Hsplit, Hroot.
  rewrite Hsplit, in_app_iff.
  assert (Hf : In ".." (filter (fun x => negb (String.eqb x "") && negb (String.eqb x "."))
                              (PosixPath.split_on "/" rel))
               <-> In ".." (PosixPath.split_on "/" rel)).
  { rewrite filter_In. simpl. tauto. }
  assert (Hr : ~ In ".." (repeat "" k)).
  { intros H. apply repeat_spec in H. discriminate H. }
  destruct (String.eqb_spec root "") as [-> | Hne].
  - rewrite Hf. tauto.
  - simpl. rewrite Hf.
    split.
    + intros [H | H]; [| right; exact H].
      exfalso. destruct Hroot as [E | [E | E]]; subst; discriminate.
    + intros [H | H]; [contradiction | right; exact H].
Qed.

Lemma path_field_traversal (v : string) :
  In ".." (PosixPath.split_on "/" v) ->
  validate_field path_field (JStr v)
  = Err (err1 "path" "value_error" ("Value error, " ++ traversal_message v)).
Proof.
  intros Hseg. unfold validate_field. simpl.
  rewrite (proj2 (parts_dotdot v) Hseg). reflexivity.
Qed.

Lemma path_field_no_traversal (v : string) :
  ~ In ".." (PosixPath.split_on "/" v) ->
  validate_field path_field (JStr v) = Ok (PStr v).
Proof.
  intros Hseg. unfold validate_field. simpl.
  destruct (in_strings ".." (PosixPath.parts v)) eqn:E.
  - exfalso. apply Hseg. apply parts_dotdot. exact E.
  - reflexivity.
Qed.

(** C3: a payload whose [path] has a ".." segment fails DiscoverTestsParams
    validation, whatever else it holds; the error is located at [path] and
    its message quotes the path and states the project-boundary rule. *)
Theorem discover_rejects_traversal
  (payload : list (string * json)) (v : string)
  (Hpath : lookup "path" payload = Some (JStr v))
  (Hseg : In ".." (PosixPath.split_on "/" v)) :
  exists errs,
    model_validate_discover payload = Err errs /\
    exists e, In e errs /\ err_loc e = [LField "path"] /\
      err_msg e = "Value error, " ++ traversal_message v /\
      (exists pre post, err_msg e = pre ++ "'" ++ v ++ "'" ++ post) /\
      (exists pre post, err_msg e = pre ++ "within the project boundary only." ++ post).
Proof.
  unfold model_validate_discover, validate_fields. simpl mc_fields.
  unfold DiscoverTestsParams_fields, collect.
  assert (Hf : field_result path_field payload
               = Err (err1 "path" "value_error" ("Value error, " ++ traversal_message v))).
  { unfold field_result. simpl f_name. rewrite Hpath. apply path_field_traversal, Hseg. }
  rewrite Hf.
  set (e := mkValErr [LField "path"] "value_error"
              ("Value error, " ++ traversal_message v) None).
  destruct (field_result pattern_field payload) as [pv | es];
    simpl; eexists; (split; [reflexivity |]); exists e;
    (split; [left; reflexivity |]); simpl;
    (split; [reflexivity | split; [reflexivity | split]]).
  - exists "Value error, Path traversal not allowed: ",
      " contains '..' sequences. Specify paths within the project boundary only.".
    reflexivity.
  - exists ("Value error, Path traversal not allowed: '" ++ v
            ++ "' contains '..' sequences. Specify paths "), "". 
    unfold traversal_message. rewrite !string_app_assoc. reflexivity.
  - exists "Value error, Path traversal not allowed: ",
      " contains '..' sequences. Specify paths within the project boundary only.".
    reflexivity.
  - exists ("Value error, Path traversal not allowed: '" ++ v
            ++ "' contains '..' sequences. Specify paths "), "".
    unfold traversal_message. rewrite !string_app_assoc. reflexivity.
Qed.

(** C10: a path none of whose "/"-separated segments is ".." passes the
    traversal check, also when ".." is only part of a segment; alone in a
    payload it validates to that path. *)
Theorem discover_accepts_non_traversal (v : string)
  (Hseg : ~ In ".." (PosixPath.split_on "/" v)) :
  validate_field path_field (JStr v) = Ok (PStr v) /\
  model_validate_discover [("path", JStr v)] = Ok (mkDiscoverTestsParams (Some v) None).
Proof.
  split; [apply path_field_no_traversal, Hseg |].
  assert (Hf : field_result path_field [("path", JStr v)] = Ok (PStr v)).
  { unfold field_result. simpl f_name. simpl lookup.
    apply path_field_no_traversal, Hseg. }
  unfold model_validate_discover, validate_fields. simpl mc_fields.
  unfold DiscoverTestsParams_fields, collect. rewrite Hf. reflexivity.
Qed.

(* Field validation: shape of errors and of successful results *)

Lemma str_items_loc (n : string) (l : list json) (i : nat) :
  Forall (at_field n) (snd (str_items n i l)).
Proof.
  revert i. induction l as [| x l IH]; intros i; simpl; [constructor |].
  specialize (IH (S i)). destruct (str_items n (S i) l) as [ok es]. simpl in IH.
  destruct x; simpl; try (constructor; [reflexivity | exact IH]); exact IH.
Qed.

Lemma check_int_err (n : string) ge le z es :
  check_int n ge le z = Err es -> es <> [] /\ Forall (at_field n) es.
Proof.
  unfold check_int.
  destruct le as [b |]; [destruct (Z.ltb b z) |]; (destruct ge as [a |]; [destruct (Z.ltb z a) |]);
    intros H; inversion H; subst;
    (split; [discriminate | repeat constructor]).
Qed.

Lemma validate_kind_err (n : string) k v es :
  validate_kind n k v = Err es -> es <> [] /\ Forall (at_field n) es.
Proof.
  unfold validate_kind.
  destruct v as [| b | z | str | l | kv];
    [intros H; discriminate H | ..];
    destruct k as [| | ge le |];
    try (intros H; inversion H; subst; split; [discriminate | repeat constructor]; fail).
  all: try (destruct (as_bool _); intros H; inversion H; subst;
            split; [discriminate | repeat constructor]; fail).
  all: try (destruct (as_int _) as [z' |];
            [apply check_int_err
            | intros H; inversion H; subst; split; [discriminate | repeat constructor]]; fail).
  all: try (intros H; discriminate H).
  (* list[str] *)
  match goal with |- context [str_items n 0 ?l] =>
    pose proof (str_items_loc n l 0) as Hl; destruct (str_items n 0 l) as [ok errs]
  end.
  simpl in Hl.
  destruct errs as [| e errs']; intros H; inversion H; subst.
  split; [discriminate | exact Hl].
Qed.

Lemma validate_field_err (f : Field) v es :
  validate_field f v = Err es -> es <> [] /\ Forall (at_field (f_name f)) es.
Proof.
  unfold validate_field.
  destruct (validate_kind (f_name f) (f_kind f) v) as [pv | es'] eqn:Hk.
  - destruct (f_after f) as [g |]; [| discriminate].
    destruct (g pv); intros H; inversion H; subst.
    split; [discriminate | repeat constructor].
  - intros H. inversion H; subst. eapply validate_kind_err; eauto.
Qed.

Lemma field_result_err (f : Field) p es :
  field_result f p = Err es -> es <> [] /\ Forall (at_field (f_name f)) es.
Proof.
  unfold field_result. destruct (lookup (f_name f) p); [apply validate_field_err | discriminate].
Qed.

Lemma collect_no_errors (fs : list Field) p :
  snd (collect fs p) = [] ->
  fst (collect fs p)
  = map (fun f => (f_name f, match field_result f p with Ok pv => pv | Err _ => PNone end)) fs
  /\ Forall (fun f => is_ok (field_result f p) = true) fs.
Proof.
  induction fs as [| f fs IH]; simpl; [auto |].
  destruct (collect fs p) as [vals errs]. simpl in IH.
  destruct (field_result f p) as [pv | es] eqn:Hf; simpl; intros H.
  - destruct (IH H) as [-> Hall]. split; [reflexivity | constructor; [rewrite Hf; reflexivity | exact Hall]].
  - apply app_eq_nil in H as [-> _].
    exfalso. apply (proj1 (field_result_err f p [] Hf)). reflexivity.
Qed.

Lemma collect_errors_incl (fs : list Field) p f es :
  In f fs -> field_result f p = Err es -> incl es (snd (collect fs p)).
Proof.
  induction fs as [| g fs IH]; simpl; [contradiction |].
  intros Hin Hf. destruct (collect fs p) as [vals errs] eqn:Hc. simpl in IH.
  destruct Hin as [-> | Hin].
  - rewrite Hf. simpl. apply incl_appl, incl_refl.
  - destruct (field_result g p); simpl; [| apply incl_appr]; apply IH; assumption.
Qed.

Lemma extra_errors_in (names : list string) p k v :
  In (k, v) p -> in_strings k names = false ->
  In (mkValErr [LField k] "extra_forbidden" "Extra inputs are not permitted" None)
     (extra_errors names p).
Proof.
  induction p as [| [k' v'] p IH]; simpl; [contradiction |].
  intros [E | Hin] Hk.
  - inversion E; subst. rewrite Hk. left. reflexivity.
  - destruct (in_strings k' names); [| right]; apply IH; assumption.
Qed.

Lemma validate_fields_ok (m : ModelClass) p vals :
  validate_fields m p = Ok vals ->
  vals = map (fun f => (f_name f, match field_result f p with Ok pv => pv | Err _ => PNone end))
             (mc_fields m)
  /\ Forall (fun f => is_ok (field_result f p) = true) (mc_fields m).
Proof.
  unfold validate_fields.
  pose proof (collect_no_errors (mc_fields m) p) as Hn.
  destruct (collect (mc_fields m) p) as [vals' errs]. simpl in Hn.
  destruct (app errs _) eqn:He; intros H; inversion H; subst.
  apply app_eq_nil in He as [-> _]. apply Hn. reflexivity.
Qed.

(* Typed results of the lax coercions *)

Lemma validate_kind_bool_ok (n : string) v pv :
  v <> JNull -> validate_kind n KBool v = Ok pv -> exists b, pv = PBool b.
Proof.
  intros Hv. unfold validate_kind.
  destruct v; [congruence | ..]; destruct (as_bool _); intros H; inversion H; eauto.
Qed.

Lemma check_int_ok_inv (n : string) ge le z pv :
  check_int n ge le z = Ok pv -> pv = PInt z.
Proof.
  unfold check_int.
  destruct le as [b |]; [destruct (Z.ltb b z) |]; (destruct ge as [a |]; [destruct (Z.ltb z a) |]);
    intros H; inversion H; reflexivity.
Qed.

Lemma validate_kind_int (n : string) ge le v :
  v <> JNull ->
  validate_kind n (KInt ge le) v
  = match as_int v with
    | Some z => check_int n ge le z
    | None => Err (err1 n "int_parsing"
                     "Input should be a valid integer, unable to parse string as an integer")
    end.
Proof. intros Hv. destruct v; [congruence | reflexivity ..]. Qed.

Lemma validate_kind_int_ok (n : string) ge le v pv :
  v <> JNull -> validate_kind n (KInt ge le) v = Ok pv -> exists z, pv = PInt z.
Proof.
  intros Hv. rewrite (validate_kind_int n ge le v Hv).
  destruct (as_int v) as [z |]; [| discriminate].
  intros H. exists z. eapply check_int_ok_inv; eauto.
Qed.

Lemma check_int_ok (n : string) ge le z :
  is_ok (check_int n ge le z) = true <->
  (match ge with Some a => a <= z | None => True end) /\
  (match le with Some b => z <= b | None => True end).
Proof.
  unfold check_int.
  destruct le as [b |]; [destruct (Z.ltb_spec b z) |];
    (destruct ge as [a |]; [destruct (Z.ltb_spec z a) |]); simpl;
    split; intros Hc; try tauto; try discriminate; lia.
Qed.

Lemma json_eq_null (v : json) : {v = JNull} + {v <> JNull}.
Proof. destruct v; [left; reflexivity | right; discriminate ..]. Defined.

Lemma validate_field_no_after (f : Field) v :
  f_after f = None -> validate_field f v = validate_kind (f_name f) (f_kind f) v.
Proof.
  intros H. unfold validate_field. rewrite H.
  destruct (validate_kind _ _ _); reflexivity.
Qed.

Lemma check_int_bounds (n : string) ge le z pv :
  check_int n ge le z = Ok pv ->
  (match ge with Some a => (a <= z)%Z | None => True end) /\
  (match le with Some b => (z <= b)%Z | None => True end).
Proof.
  intros H. apply (check_int_ok n ge le z). rewrite H. reflexivity.
Qed.

Lemma validate_kind_int_bounds (n : string) ge le v z :
  validate_kind n (KInt ge le) v = Ok (PInt z) ->
  (match ge with Some a => (a <= z)%Z | None => True end) /\
  (match le with Some b => (z <= b)%Z | None => True end).
Proof.
  destruct (json_eq_null v) as [-> | Hv]; [discriminate |].
  rewrite (validate_kind_int n ge le v Hv).
  destruct (as_int v) as [z' |]; [| discriminate].
  intros H. pose proof (check_int_ok_inv n ge le z' _ H) as E. inversion E; subst.
  eapply check_int_bounds; eauto.
Qed.

(** C2: when a payload supplies non-null values for both [failfast] and
    [maxfail], ExecuteTestsParams validation fails, whatever the other
    fields hold (a field error, or else the exclusivity error). *)
Theorem failfast_maxfail_exclusive_rejected (payload : list (string * json)) (a b : json)
  (Ha : lookup "failfast" payload = Some a) (Hna : a <> JNull)
  (Hb : lookup "maxfail" payload = Some b) (Hnb : b <> JNull) :
  is_err (model_validate_execute payload) = true.
Proof.
  unfold model_validate_execute.
  destruct (validate_fields ExecuteTestsParams_class payload) as [vals | errs] eqn:Hv;
    [| reflexivity].
  apply validate_fields_ok in Hv as [-> Hall].
  rewrite Forall_forall in Hall.
  assert (Hokf := Hall failfast_field ltac:(simpl; tauto)).
  assert (Hokm := Hall maxfail_field ltac:(simpl; tauto)).
  assert (Hf : field_result failfast_field payload = validate_kind "failfast" KBool a).
  { unfold field_result. simpl f_name. rewrite Ha.
    apply validate_field_no_after. reflexivity. }
  assert (Hm : field_result maxfail_field payload
               = validate_kind "maxfail" (KInt (Some 1) None) b).
  { unfold field_result. simpl f_name. rewrite Hb.
    apply validate_field_no_after. reflexivity. }
  destruct (field_result failfast_field payload) as [pf |] eqn:Ef; [| discriminate].
  destruct (field_result maxfail_field payload) as [pm |] eqn:Em; [| discriminate].
  destruct (validate_kind_bool_ok "failfast" a pf Hna (eq_sym Hf)) as [bf ->].
  destruct (validate_kind_int_ok "maxfail" (Some 1) None b pm Hnb (eq_sym Hm)) as [zm ->].
  unfold validate_failfast_maxfail_exclusive, build_execute. simpl mc_fields.
  simpl failfast; simpl maxfail. unfold get_bool, get_int. simpl lookup.
  rewrite Ef, Em. reflexivity.
Qed.

Lemma extra_key_rejected (payload : list (string * json)) k v :
  In (k, v) payload -> in_strings k (field_names ExecuteTestsParams_class) = false ->
  is_err (model_validate_execute payload) = true.
Proof.
  intros Hin Hk. unfold model_validate_execute, validate_fields.
  pose proof (extra_errors_in _ payload k v Hin Hk) as Hx.
  destruct (collect (mc_fields ExecuteTestsParams_class) payload) as [vals errs].
  simpl mc_extra_forbid. cbv iota.
  destruct (app errs (extra_errors (field_names ExecuteTestsParams_class) payload)) eqn:He;
    [| reflexivity].
  apply app_eq_nil in He as [_ He]. rewrite He in Hx. contradiction.
Qed.

(** C7 (amended): a JSON integer is accepted as verbosity iff it lies in
    [-2, 2], and as maxfail or timeout iff it is >= 1; whatever value these
    fields accept (lax mode also takes null and non-integers such as the
    string "1") is stored as None or as an integer within those bounds; and
    any payload with a key outside the eight declared fields is rejected. *)
Theorem execute_field_constraints :
  (forall z, is_ok (validate_field verbosity_field (JInt z)) = true <-> -2 <= z <= 2) /\
  (forall z, is_ok (validate_field maxfail_field (JInt z)) = true <-> 1 <= z) /\
  (forall z, is_ok (validate_field timeout_field (JInt z)) = true <-> 1 <= z) /\
  (forall v pv, validate_field verbosity_field v = Ok pv ->
     pv = PNone \/ exists z, pv = PInt z /\ -2 <= z <= 2) /\
  (forall v pv, validate_field maxfail_field v = Ok pv ->
     pv = PNone \/ exists z, pv = PInt z /\ 1 <= z) /\
  (forall v pv, validate_field timeout_field v = Ok pv ->
     pv = PNone \/ exists z, pv = PInt z /\ 1 <= z) /\
  validate_field verbosity_field (JStr "1") = Ok (PInt 1) /\
  validate_field verbosity_field JNull = Ok PNone /\
  (forall payload k v, In (k, v) payload ->
     in_strings k (field_names ExecuteTestsParams_class) = false ->
     is_err (model_validate_execute payload) = true).
Proof.
  assert (Hval : forall f ge le v pv, f_after f = None -> f_kind f = KInt ge le ->
            validate_field f v = Ok pv ->
            pv = PNone \/ exists z, pv = PInt z /\
              (match ge with Some a => a <= z | None => True end) /\
              (match le with Some b => z <= b | None => True end)).
  { intros f ge le v pv Ha Hk H. rewrite (validate_field_no_after f v Ha), Hk in H.
    destruct (json_eq_null v) as [-> | Hv]; [left; inversion H; reflexivity |].
    right. destruct (validate_kind_int_ok _ _ _ _ _ Hv H) as [z ->].
    exists z. split; [reflexivity | exact (validate_kind_int_bounds _ _ _ _ _ H)]. }
  split; [| split; [| split; [| split; [| split; [| split; [| split; [| split]]]]]]].
  - intros z. rewrite validate_field_no_after by reflexivity.
    change (is_ok (check_int "verbosity" (Some (-2)) (Some 2) z) = true <-> -2 <= z <= 2).
    rewrite check_int_ok. split; intros H; lia.
  - intros z. rewrite validate_field_no_after by reflexivity.
    change (is_ok (check_int "maxfail" (Some 1) None z) = true <-> 1 <= z).
    rewrite check_int_ok. split; [intros [H _]; exact H | intros H; split; [exact H | exact I]].
  - intros z. rewrite validate_field_no_after by reflexivity.
    change (is_ok (check_int "timeout" (Some 1) None z) = true <-> 1 <= z).
    rewrite check_int_ok. split; [intros [H _]; exact H | intros H; split; [exact H | exact I]].
  - intros v pv H.
    destruct (Hval verbosity_field (Some (-2)) (Some 2) v pv eq_refl eq_refl H)
      as [E | [z [E Hz]]]; [left; exact E | right; exists z; split; [exact E | lia]].
  - intros v pv H.
    destruct (Hval maxfail_field (Some 1) None v pv eq_refl eq_refl H)
      as [E | [z [E [Hz _]]]]; [left; exact E | right; exists z; split; [exact E | exact Hz]].
  - intros v pv H.
    destruct (Hval timeout_field (Some 1) None v pv eq_refl eq_refl H)
      as [E | [z [E [Hz _]]]]; [left; exact E | right; exists z; split; [exact E | exact Hz]].
  - reflexivity.
  - reflexivity.
  - exact extra_key_rejected.
Qed.

(** Against C7 as first stated: the string "1" and null are accepted as
    verbosity, though neither is an integer. *)
Lemma verbosity_accepts_non_integers :
  model_validate_execute [("verbosity", JStr "1")]
  = Ok (mkExecuteTestsParams None None None (Some 1) None None None None) /\
  model_validate_execute [("verbosity", JNull)]
  = Ok (mkExecuteTestsParams None None None None None None None None).
Proof. split; reflexivity. Qed.

(** C6 (amended): a failed field stage lists, for every field whose own
    check fails, an error located at that field, and for every unknown key
    an error located at that key; the failfast/maxfail rule is checked only
    after every field passes, and is then the single error, which names no
    field. *)
Theorem validation_errors_enumerated :
  (forall m payload errs, validate_fields m payload = Err errs ->
     (forall f, In f (mc_fields m) -> is_err (field_result f payload) = true ->
        exists e, In e errs /\ at_field (f_name f) e) /\
     (mc_extra_forbid m = true -> forall k v, In (k, v) payload ->
        in_strings k (field_names m) = false ->
        exists e, In e errs /\ err_loc e = [LField k])) /\
  (forall payload errs, model_validate_execute payload = Err errs ->
     validate_fields ExecuteTestsParams_class payload = Err errs \/
     (errs = [exclusive_error] /\
      is_ok (validate_fields ExecuteTestsParams_class payload) = true)) /\
  (forall payload errs, model_validate_discover payload = Err errs ->
     validate_fields DiscoverTestsParams_class payload = Err errs) /\
  err_loc exclusive_error = [].
Proof.
  split; [| split; [| split]].
  - intros m payload errs. unfold validate_fields.
    pose proof (fun f es => collect_errors_incl (mc_fields m) payload f es) as Hincl.
    destruct (collect (mc_fields m) payload) as [vals errs0]. simpl in Hincl.
    set (extra := if mc_extra_forbid m then extra_errors (field_names m) payload else []).
    destruct (app errs0 extra) as [| x xs] eqn:He; intros H; inversion H; subst; clear H.
    rewrite <- He. split.
    + intros f Hin Hbad.
      destruct (field_result f payload) as [pv | es] eqn:Ef; [discriminate |].
      destruct (field_result_err f payload es Ef) as [Hne Hat].
      destruct es as [| e es']; [contradiction |].
      exists e. split.
      * apply in_or_app. left. apply (Hincl f (e :: es') Hin Ef). left. reflexivity.
      * inversion Hat; assumption.
    + intros Hforbid k v Hin Hk.
      exists (mkValErr [LField k] "extra_forbidden" "Extra inputs are not permitted" None).
      split; [| reflexivity].
      apply in_or_app. right. unfold extra. rewrite Hforbid.
      eapply extra_errors_in; eauto.
  - intros payload errs. unfold model_validate_execute.
    destruct (validate_fields ExecuteTestsParams_class payload) as [vals | es].
    + unfold validate_failfast_maxfail_exclusive.
      destruct (_ && _); intros H; inversion H; subst. right. auto.
    + intros H. left. inversion H. reflexivity.
  - intros payload errs. unfold model_validate_discover.
    destruct (validate_fields DiscoverTestsParams_class payload); intros H;
      [discriminate | inversion H; reflexivity].
  - reflexivity.
Qed.

(** Against C6 as first stated: [failfast] and [maxfail] together yield one
    error that names neither field; with an out-of-range [verbosity] added,
    only [verbosity] is reported. *)
Lemma exclusivity_error_names_no_field :
  model_validate_execute [("failfast", JBool true); ("maxfail", JInt 1)]
  = Err [exclusive_error] /\ err_loc exclusive_error = [] /\
  exists errs,
    model_validate_execute [("verbosity", JInt 5); ("failfast", JBool true); ("maxfail", JInt 1)]
    = Err errs /\ map err_loc errs = [[LField "verbosity"]].
Proof.
  split; [reflexivity |]. split; [reflexivity |].
  eexists. split; reflexivity.
Qed.

(* Witnesses *)

Lemma failfast_maxfail_exclusive_rejected_witness :
  lookup "failfast" [("markers", JStr "slow"); ("failfast", JBool true); ("maxfail", JInt 3)]
    = Some (JBool true) /\
  is_err (model_validate_execute
            [("markers", JStr "slow"); ("failfast", JBool true); ("maxfail", JInt 3)]) = true.
Proof.
  split; [reflexivity |].
  apply (failfast_maxfail_exclusive_rejected
           [("markers", JStr "slow"); ("failfast", JBool true); ("maxfail", JInt 3)]
           (JBool true) (JInt 3)); (reflexivity || discriminate).
Defined.

Lemma discover_rejects_traversal_witness :
  In ".." (PosixPath.split_on "/" "../secret") /\
  exists errs,
    model_validate_discover [("path", JStr "../secret")] = Err errs /\
    exists e, In e errs /\ err_loc e = [LField "path"] /\
      err_msg e = "Value error, " ++ traversal_message "../secret" /\
      (exists pre post, err_msg e = pre ++ "'" ++ "../secret" ++ "'" ++ post) /\
      (exists pre post, err_msg e = pre ++ "within the project boundary only." ++ post).
Proof.
  split; [simpl; tauto |].
  apply (discover_rejects_traversal [("path", JStr "../secret")] "../secret");
    [reflexivity | simpl; tauto].
Defined.

Lemma discover_accepts_non_traversal_witness :
  ~ In ".." (PosixPath.split_on "/" "tests/..hidden") /\
  validate_field path_field (JStr "tests/..hidden") = Ok (PStr "tests/..hidden") /\
  model_validate_discover [("path", JStr "tests/..hidden")]
  = Ok (mkDiscoverTestsParams (Some "tests/..hidden") None).
Proof.
  assert (H : ~ In ".." (PosixPath.split_on "/" "tests/..hidden")).
  { simpl. intros [E | [E | []]]; discriminate E. }
  split; [exact H |].
  apply (discover_accepts_non_traversal "tests/..hidden" H).
Defined.

End Proofs.

Module ExecuteProofs.
Import Coerce Pydantic Domain Execute Sample.
Local Open Scope string_scope.

Lemma count_partition (ts : list TestResult) :
  length ts = (count_outcome Passed ts + count_outcome Failed ts
               + count_outcome Error ts + count_outcome Skipped ts)%nat.
Proof.
  unfold count_outcome.
  induction ts as [| t ts IH]; [reflexivity |].
  simpl. destruct (outcome t); simpl; lia.
Qed.

(** The fixture scenario: two passing tests and one failing one. *)
Example sample_scenario :
  match execute sample_args sample_run sample_parse
          [("node_ids", JList [JStr "tests/fixtures/sample_tests/"])] with
  | Ok r => exit_code r = 1 /\ summary r = mkExecutionSummary 3 2 1 0 0 4
  | Err _ => False
  end.
Proof. split; reflexivity. Qed.

(** C5: every summary returned by the execute operation has
    total = passed + failed + errors + skipped, whatever the runner did. *)
Theorem execute_summary_total
  (build_args : ExecuteTestsParams -> list string)
  (run_process : list string -> option Z -> ProcessOutcome)
  (parse_report : string -> string -> option Report)
  (payload : list (string * json)) (resp : ExecuteTestsResponse)
  (H : execute build_args run_process parse_report payload = Ok resp) :
  total (summary resp)
  = (passed (summary resp) + failed (summary resp)
     + errors (summary resp) + skipped (summary resp))%nat.
Proof.
  unfold execute, execute_tests in H.
  destruct (model_validate_execute payload) as [params |]; [| discriminate].
  destruct (run_process (build_args params) (timeout params)) as [code out err | |];
    try discriminate.
  destruct (parse_report out err) as [r |]; [| discriminate].
  inversion H; subst. simpl. apply count_partition.
Qed.

(** C1: every failed or errored TestResult of an execute response carries a
    message, namely the failure detail captured for that test in the
    runner's report. *)
Theorem execute_failure_messages
  (build_args : ExecuteTestsParams -> list string)
  (run_process : list string -> option Z -> ProcessOutcome)
  (parse_report : string -> string -> option Report)
  (payload : list (string * json)) (resp : ExecuteTestsResponse)
  (H : execute build_args run_process parse_report payload = Ok resp)
  (t : TestResult) (Ht : In t (tests resp))
  (Ho : outcome t = Failed \/ outcome t = Error) :
  exists params out err r e,
    model_validate_execute payload = Ok params /\
    run_process (build_args params) (timeout params) = Completed (exit_code resp) out err /\
    parse_report out err = Some r /\
    In e (entries r) /\ re_node_id e = node_id t /\ re_outcome e = outcome t /\
    message t = Some (re_failure_detail e).
Proof.
  unfold execute, execute_tests in H.
  destruct (model_validate_execute payload) as [params |]; [| discriminate].
  destruct (run_process (build_args params) (timeout params)) as [code out err | |] eqn:Er;
    try discriminate.
  destruct (parse_report out err) as [r |] eqn:Ep; [| discriminate].
  inversion H; subst. simpl in Ht.
  apply in_map_iff in Ht as [e [<- He]].
  exists params, out, err, r, e.
  split; [reflexivity |]. split; [exact Er |]. split; [exact Ep |].
  split; [exact He |]. split; [reflexivity |]. split; [reflexivity |].
  unfold to_test_result in *. simpl in *.
  destruct Ho as [Ho | Ho]; rewrite Ho; reflexivity.
Qed.

(* Witnesses *)

Lemma execute_summary_total_witness :
  exists resp,
    execute sample_args sample_run sample_parse
      [("node_ids", JList [JStr "tests/fixtures/sample_tests/"])] = Ok resp /\
    total (summary resp)
    = (passed (summary resp) + failed (summary resp)
       + errors (summary resp) + skipped (summary resp))%nat.
Proof.
  eexists. split; [reflexivity |].
  apply (execute_summary_total sample_args sample_run sample_parse
           [("node_ids", JList [JStr "tests/fixtures/sample_tests/"])]).
  reflexivity.
Defined.

Lemma execute_failure_messages_witness :
  let failing := mkTestResult "tests/fixtures/sample_tests/test_sample.py::test_failing"
                   Failed (Some "assert 1 == 2") (Some 2%nat) in
  exists resp,
    execute sample_args sample_run sample_parse
      [("node_ids", JList [JStr "tests/fixtures/sample_tests/"])] = Ok resp /\
    In failing (tests resp) /\
    exists params out err r e,
      model_validate_execute [("node_ids", JList [JStr "tests/fixtures/sample_tests/"])]
        = Ok params /\
      sample_run (sample_args params) (timeout params)
        = Completed (exit_code resp) out err /\
      sample_parse out err = Some r /\
      In e (entries r) /\ re_node_id e = node_id failing /\
      re_outcome e = outcome failing /\ message failing = Some (re_failure_detail e).
Proof.
  intros failing. eexists. split; [reflexivity |].
  assert (Hin : In failing (tests (mkExecuteTestsResponse 1
                  (summarize (map to_test_result (entries sample_report)) 4)
                  (map to_test_result (entries sample_report))
                  "3 collected: 2 passed, 1 failed"))).
  { simpl. right. right. left. reflexivity. }
  split; [exact Hin |].
  apply (execute_failure_messages sample_args sample_run sample_parse
           [("node_ids", JList [JStr "tests/fixtures/sample_tests/"])] _
           eq_refl failing Hin).
  left. reflexivity.
Defined.

End ExecuteProofs.

(* ========================================================================= *)
(** * Further properties of the parameter models *)

Module ExtraProofs.
Import Coerce Pydantic Domain Proofs.
Local Open Scope string_scope.

Lemma check_int_in_bounds (n : string) ge le z :
  (match ge with Some a => (a <= z)%Z | None => True end) ->
  (match le with Some b => (z <= b)%Z | None => True end) ->
  check_int n ge le z = Ok (PInt z).
Proof.
  intros Hg Hl.
  assert (Hok : is_ok (check_int n ge le z) = true) by (apply check_int_ok; auto).
  destruct (check_int n ge le z) as [pv |] eqn:E; [| discriminate].
  rewrite (check_int_ok_inv n ge le z pv E). reflexivity.
Qed.

Lemma field_int_bounds (f : Field) ge le payload z :
  f_after f = None -> f_kind f = KInt ge le ->
  field_result f payload = Ok (PInt z) ->
  (match ge with Some a => (a <= z)%Z | None => True end) /\
  (match le with Some b => (z <= b)%Z | None => True end).
Proof.
  intros Ha Hk. unfold field_result.
  destruct (lookup (f_name f) payload) as [v |]; [| discriminate].
  rewrite (validate_field_no_after f v Ha), Hk. apply validate_kind_int_bounds.
Qed.

(** X1: every instance produced by ExecuteTestsParams validation keeps the
    field constraints and the model validator's rule. *)
Theorem validated_execute_invariant (payload : list (string * json)) (p : ExecuteTestsParams)
  (H : model_validate_execute payload = Ok p) :
  execute_invariant p.
Proof.
  unfold model_validate_execute in H.
  destruct (validate_fields ExecuteTestsParams_class payload) as [vals |] eqn:Hv;
    [| discriminate].
  apply validate_fields_ok in Hv as [-> _].
  unfold validate_failfast_maxfail_exclusive in H.
  destruct (is_not_none _ && is_not_none _) eqn:Ex; [discriminate |].
  inversion H; subst; clear H.
  unfold execute_invariant. split; [| split; [| split]].
  - intros z Hz. cbn [verbosity build_execute] in Hz. unfold get_int in Hz.
    simpl lookup in Hz.
    destruct (field_result verbosity_field payload) as [[] |] eqn:E; try discriminate.
    inversion Hz; subst.
    destruct (field_int_bounds verbosity_field (Some (-2)%Z) (Some 2%Z) payload z
                eq_refl eq_refl E).
    split; assumption.
  - intros z Hz. cbn [maxfail build_execute] in Hz. unfold get_int in Hz.
    simpl lookup in Hz.
    destruct (field_result maxfail_field payload) as [[] |] eqn:E; try discriminate.
    inversion Hz; subst.
    apply (field_int_bounds maxfail_field (Some 1%Z) None payload z eq_refl eq_refl E).
  - intros z Hz. cbn [timeout build_execute] in Hz. unfold get_int in Hz.
    simpl lookup in Hz.
    destruct (field_result timeout_field payload) as [[] |] eqn:E; try discriminate.
    inversion Hz; subst.
    apply (field_int_bounds timeout_field (Some 1%Z) None payload z eq_refl eq_refl E).
  - destruct (failfast _), (maxfail _); simpl in Ex; auto; discriminate.
Qed.


Lemma str_items_strings (n : string) (l : list string) (i : nat) :
  str_items n i (map JStr l) = (l, []).
Proof.
  revert i. induction l as [| x l IH]; intros i; simpl; [reflexivity |].
  rewrite IH. reflexivity.
Qed.

Lemma validate_field_int (f : Field) z :
  f_after f = None ->
  match f_kind f with
  | KInt ge le =>
      (match ge with Some a => (a <= z)%Z | None => True end) /\
      (match le with Some b => (z <= b)%Z | None => True end)
  | _ => False
  end ->
  validate_field f (JInt z) = Ok (PInt z).
Proof.
  intros Ha Hk. rewrite (validate_field_no_after f _ Ha).
  destruct (f_kind f) as [| | ge le |]; try contradiction.
  destruct Hk as [Hg Hl]. apply (check_int_in_bounds _ ge le z Hg Hl).
Qed.

Lemma validate_field_strlist (f : Field) l :
  f_after f = None -> f_kind f = KStrList ->
  validate_field f (JList (map JStr l)) = Ok (PStrList l).
Proof.
  intros Ha Hk. rewrite (validate_field_no_after f _ Ha), Hk.
  simpl. rewrite str_items_strings. reflexivity.
Qed.

(** X2: dumping a valid ExecuteTestsParams instance to JSON and validating
    the dump gives the instance back. *)
Theorem model_dump_execute_roundtrip (p : ExecuteTestsParams)
  (H : execute_invariant p) :
  model_validate_execute (model_dump_execute p) = Ok p.
Proof.
  destruct p as [ni mk kw vb ff mf sc tm].
  destruct H as (Hv & Hm & Ht & Hx). simpl in Hv, Hm, Ht, Hx.
  unfold model_validate_execute, validate_fields.
  cbn [collect mc_fields ExecuteTestsParams_class ExecuteTestsParams_fields].
  unfold field_result. simpl lookup. cbv beta iota.
  destruct ni, vb, mf, tm, mk, kw, ff, sc;
  try specialize (Hv _ eq_refl); try specialize (Hm _ eq_refl);
  try specialize (Ht _ eq_refl); simpl;
  rewrite ?validate_field_strlist by reflexivity;
  rewrite ?validate_field_int by (try reflexivity; simpl; lia);
  simpl; try reflexivity; destruct Hx; discriminate.
Qed.

(* Which payloads validate *)

Lemma collect_snd_nil (fs : list Field) p :
  snd (collect fs p) = [] <-> Forall (fun f => is_ok (field_result f p) = true) fs.
Proof.
  induction fs as [| f fs IH]; simpl; [split; auto |].
  destruct (collect fs p) as [vals errs]. simpl in IH.
  destruct (field_result f p) as [pv | es] eqn:Hf; simpl.
  - rewrite IH. split; [intros H; constructor; [rewrite Hf |]; auto | intros H; inversion H; auto].
  - split.
    + intros H. apply app_eq_nil in H as [-> _].
      exfalso. apply (proj1 (field_result_err f p [] Hf)). reflexivity.
    + intros H. inversion H as [| ? ? Hbad]. rewrite Hf in Hbad. discriminate.
Qed.

Lemma extra_errors_nil (names : list string) p :
  extra_errors names p = [] <-> Forall (fun kv => in_strings (fst kv) names = true) p.
Proof.
  induction p as [| [k v] p IH]; simpl; [split; auto |].
  destruct (in_strings k names) eqn:Hk.
  - rewrite IH. split; [intros H; constructor; auto | intros H; inversion H; auto].
  - split; [discriminate | intros H; inversion H; simpl in *; congruence].
Qed.

Lemma validate_fields_is_ok (m : ModelClass) p :
  is_ok (validate_fields m p) = true <->
  Forall (fun f => is_ok (field_result f p) = true) (mc_fields m) /\
  (mc_extra_forbid m = true -> Forall (fun kv => in_strings (fst kv) (field_names m) = true) p).
Proof.
  unfold validate_fields.
  pose proof (collect_snd_nil (mc_fields m) p) as Hc.
  destruct (collect (mc_fields m) p) as [vals errs]. simpl in Hc.
  rewrite <- Hc, <- extra_errors_nil.
  destruct (mc_extra_forbid m).
  - destruct (app errs (extra_errors (field_names m) p)) eqn:He; simpl.
    + apply app_eq_nil in He as [-> ->]. tauto.
    + split; [discriminate |]. intros [E1 E2]. rewrite E1, (E2 eq_refl) in He. discriminate.
  - rewrite app_nil_r. destruct errs; simpl.
    + split; [intros _; split; [reflexivity | discriminate] | reflexivity].
    + split; [discriminate | intros [E _]; discriminate].
Qed.

Lemma path_value_ok (v : json) :
  is_ok (validate_field path_field v) = true <->
  v = JNull \/ exists s, v = JStr s /\ ~ In ".." (PosixPath.split_on "/" s).
Proof.
  destruct v as [| b | z | s | l | kv];
    try (simpl; split; [discriminate | intros [E | [s' [E _]]]; discriminate]).
  - simpl. split; auto.
  - destruct (In_dec string_dec ".." (PosixPath.split_on "/" s)) as [Hin | Hout].
    + rewrite (path_field_traversal s Hin). simpl. split; [discriminate |].
      intros [E | [s' [E Hs]]]; [discriminate |]. inversion E; subst. contradiction.
    + rewrite (path_field_no_traversal s Hout). simpl. split; [| reflexivity].
      intros _. right. exists s. auto.
Qed.

Lemma pattern_value_ok (v : json) :
  is_ok (validate_field pattern_field v) = true <-> v = JNull \/ exists s, v = JStr s.
Proof.
  destruct v; simpl; split; try discriminate; eauto;
    intros [E | [s' E]]; discriminate.
Qed.

Lemma field_result_ok_lookup (f : Field) p (P : json -> Prop) :
  (forall v, is_ok (validate_field f v) = true <-> P v) ->
  is_ok (field_result f p) = true <-> (forall v, lookup (f_name f) p = Some v -> P v).
Proof.
  intros HP. unfold field_result.
  destruct (lookup (f_name f) p) as [v |].
  - rewrite HP. split; [intros H v' E; inversion E; subst; exact H | intros H; apply H; reflexivity].
  - simpl. split; [intros _ v E; discriminate | reflexivity].
Qed.

(** X3: a payload validates as DiscoverTestsParams exactly when its path
    is absent, null or a string without a ".." segment, its pattern is
    absent, null or a string, and it has no other key. *)
Theorem discover_validation_iff (payload : list (string * json)) :
  is_ok (model_validate_discover payload) = true <->
  (forall v, lookup "path" payload = Some v ->
     v = JNull \/ exists s, v = JStr s /\ ~ In ".." (PosixPath.split_on "/" s)) /\
  (forall v, lookup "pattern" payload = Some v -> v = JNull \/ exists s, v = JStr s) /\
  Forall (fun kv => fst kv = "path" \/ fst kv = "pattern") payload.
Proof.
  assert (E : is_ok (model_validate_discover payload)
              = is_ok (validate_fields DiscoverTestsParams_class payload)).
  { unfold model_validate_discover.
    destruct (validate_fields DiscoverTestsParams_class payload); reflexivity. }
  rewrite E, validate_fields_is_ok. simpl mc_fields. simpl mc_extra_forbid.
  unfold DiscoverTestsParams_fields.
  rewrite !Forall_cons_iff.
  rewrite (field_result_ok_lookup path_field payload _ path_value_ok).
  rewrite (field_result_ok_lookup pattern_field payload _ pattern_value_ok).
  assert (Hk : Forall (fun kv => in_strings (fst kv) (field_names DiscoverTestsParams_class) = true)
                 payload <-> Forall (fun kv => fst kv = "path" \/ fst kv = "pattern") payload).
  { split; apply Forall_impl; intros [k v]; rewrite in_strings_In; simpl;
      intros H; intuition congruence. }
  rewrite <- Hk. simpl f_name.
  split; [intros [[H1 [H2 _]] H3]; auto | intros [H1 [H2 H3]]; auto].
Qed.

(** X4: a DiscoverTestsParams whose path has no ".." segment survives
    model_dump followed by validation unchanged. *)
Theorem model_dump_discover_roundtrip (p : DiscoverTestsParams)
  (H : forall s, path p = Some s -> ~ In ".." (PosixPath.split_on "/" s)) :
  model_validate_discover (model_dump_discover p) = Ok p.
Proof.
  destruct p as [[s |] [t |]]; simpl in H;
    unfold model_validate_discover, validate_fields;
    cbn [collect mc_fields DiscoverTestsParams_class DiscoverTestsParams_fields];
    unfold field_result; simpl lookup; cbv beta iota;
    try rewrite (path_field_no_traversal s (H s eq_refl)); reflexivity.
Qed.


(* An explicit null is the same as an absent key *)

Lemma lookup_remove_key {A} (k k' : string) (d : list (string * A)) :
  lookup k' (remove_key k d) = if String.eqb k' k then None else lookup k' d.
Proof.
  unfold remove_key. induction d as [| [k0 v] d IH]; simpl.
  - destruct (String.eqb k' k); reflexivity.
  - destruct (String.eqb_spec k0 k) as [-> | Hne]; simpl; rewrite IH.
    + destruct (String.eqb_spec k' k) as [-> | Hne']; reflexivity.
    + destruct (String.eqb_spec k' k0) as [-> | Hne']; [| reflexivity].
      destruct (String.eqb_spec k0 k); [contradiction | reflexivity].
Qed.

Lemma collect_ext (fs : list Field) p q :
  (forall f, In f fs -> field_result f p = field_result f q) ->
  collect fs p = collect fs q.
Proof.
  induction fs as [| f fs IH]; simpl; intros H; [reflexivity |].
  rewrite IH by auto. rewrite (H f (or_introl eq_refl)). reflexivity.
Qed.

Lemma extra_errors_remove (names : list string) k p :
  in_strings k names = true ->
  extra_errors names (remove_key k p) = extra_errors names p.
Proof.
  intros Hk. unfold remove_key.
  induction p as [| [k0 v] p IH]; simpl; [reflexivity |].
  destruct (String.eqb_spec k0 k) as [-> | Hne]; simpl.
  - rewrite Hk. exact IH.
  - destruct (in_strings k0 names); rewrite IH; reflexivity.
Qed.

Lemma validate_fields_null_absent (m : ModelClass) k p :
  In k (field_names m) ->
  (forall f, In f (mc_fields m) -> validate_field f JNull = Ok PNone) ->
  lookup k p = Some JNull ->
  validate_fields m (remove_key k p) = validate_fields m p.
Proof.
  intros Hk Hf Hn. unfold validate_fields.
  rewrite (collect_ext (mc_fields m) (remove_key k p) p).
  - rewrite extra_errors_remove by (apply in_strings_In; exact Hk). reflexivity.
  - intros f Hin. unfold field_result. rewrite lookup_remove_key.
    destruct (String.eqb_spec (f_name f) k) as [-> | Hne]; [| reflexivity].
    rewrite Hn, (Hf f Hin). reflexivity.
Qed.

Lemma execute_fields_accept_null :
  forall f, In f (mc_fields ExecuteTestsParams_class) -> validate_field f JNull = Ok PNone.
Proof.
  intros f Hf. simpl in Hf. intuition (subst; reflexivity).
Qed.

Lemma discover_fields_accept_null :
  forall f, In f (mc_fields DiscoverTestsParams_class) -> validate_field f JNull = Ok PNone.
Proof.
  intros f Hf. simpl in Hf. intuition (subst; reflexivity).
Qed.

(** X5: in an ExecuteTestsParams payload, a declared field given as null
    validates exactly as if the key were absent. *)
Theorem execute_null_is_absent (payload : list (string * json)) (k : string)
  (Hk : In k (field_names ExecuteTestsParams_class))
  (Hn : lookup k payload = Some JNull) :
  model_validate_execute (remove_key k payload) = model_validate_execute payload.
Proof.
  unfold model_validate_execute.
  rewrite (validate_fields_null_absent _ k payload Hk execute_fields_accept_null Hn).
  reflexivity.
Qed.

(** X6: in a DiscoverTestsParams payload, a null path or pattern validates
    exactly as if the key were absent (the traversal check lets None
    through). *)
Theorem discover_null_is_absent (payload : list (string * json)) (k : string)
  (Hk : In k (field_names DiscoverTestsParams_class))
  (Hn : lookup k payload = Some JNull) :
  model_validate_discover (remove_key k payload) = model_validate_discover payload.
Proof.
  unfold model_validate_discover.
  rewrite (validate_fields_null_absent _ k payload Hk discover_fields_accept_null Hn).
  reflexivity.
Qed.

(* The order of the payload keys does not matter *)

Lemma lookup_perm {A} (p q : list (string * A)) :
  NoDup (map fst p) -> Permutation p q -> forall k, lookup k p = lookup k q.
Proof.
  intros Hnd Hpq. induction Hpq as [| [k0 v] l l' Hp IH | [k1 v1] [k2 v2] l | l l' l'' H1 IH1 H2 IH2];
    intros k; simpl in *.
  - reflexivity.
  - inversion Hnd as [| ? ? _ Hnd']; subst.
    destruct (String.eqb k k0); [reflexivity | apply IH; assumption].
  - inversion Hnd as [| ? ? Hnin _]; subst. simpl in Hnin.
    destruct (String.eqb_spec k k2) as [E2 | N2], (String.eqb_spec k k1) as [E1 | N1];
      try reflexivity.
    exfalso. apply Hnin. left. congruence.
  - rewrite IH1 by assumption. apply IH2.
    exact (Permutation_NoDup (Permutation_map fst H1) Hnd).
Qed.

Lemma Forall_perm {A} (P : A -> Prop) (l l' : list A) :
  Permutation l l' -> Forall P l -> Forall P l'.
Proof.
  intros Hp H. apply Forall_forall. intros x Hx.
  apply (proj1 (Forall_forall P l) H). apply Permutation_in with (l := l'); auto.
  apply Permutation_sym. exact Hp.
Qed.

Lemma validate_fields_perm (m : ModelClass) p q :
  NoDup (map fst p) -> Permutation p q ->
  forall vals, validate_fields m p = Ok vals -> validate_fields m q = Ok vals.
Proof.
  intros Hnd Hpq vals. unfold validate_fields.
  rewrite (collect_ext (mc_fields m) p q)
    by (intros f _; unfold field_result; rewrite (lookup_perm p q Hnd Hpq); reflexivity).
  destruct (collect (mc_fields m) q) as [vs errs].
  destruct (mc_extra_forbid m); [| exact (fun H => H)].
  destruct (app errs (extra_errors (field_names m) p)) eqn:E; [| discriminate].
  apply app_eq_nil in E as [-> E]. simpl.
  apply extra_errors_nil in E. apply (Forall_perm _ _ _ Hpq), extra_errors_nil in E.
  rewrite E. exact (fun H => H).
Qed.

Lemma validate_fields_perm_iff (m : ModelClass) p q :
  NoDup (map fst p) -> Permutation p q ->
  forall vals, validate_fields m p = Ok vals <-> validate_fields m q = Ok vals.
Proof.
  intros Hnd Hpq vals. split; [apply validate_fields_perm; assumption |].
  apply validate_fields_perm; [| apply Permutation_sym; exact Hpq].
  exact (Permutation_NoDup (Permutation_map fst Hpq) Hnd).
Qed.

Lemma result_match_perm {R} (m : ModelClass) p q (g : list (string * pval) -> result R (list ValErr)) :
  NoDup (map fst p) -> Permutation p q ->
  forall r, match validate_fields m p with Ok v => g v | Err e => Err e end = Ok r <->
            match validate_fields m q with Ok v => g v | Err e => Err e end = Ok r.
Proof.
  intros Hnd Hpq r. pose proof (validate_fields_perm_iff m p q Hnd Hpq) as H.
  destruct (validate_fields m p) as [v |] eqn:Ep, (validate_fields m q) as [w |] eqn:Eq.
  - assert (Ok w = Ok v) as Hw by (apply H; reflexivity). inversion Hw; subst. tauto.
  - pose proof (proj1 (H v) eq_refl). discriminate.
  - split; [discriminate |]. intros _. pose proof (proj2 (H w) eq_refl). discriminate.
  - split; discriminate.
Qed.

(** X7: for a payload without duplicate keys, reordering its keys does not
    change which ExecuteTestsParams or DiscoverTestsParams it validates to. *)
Theorem validation_key_order_irrelevant (p q : list (string * json))
  (Hnd : NoDup (map fst p)) (Hpq : Permutation p q) :
  (forall r, model_validate_execute p = Ok r <-> model_validate_execute q = Ok r) /\
  (forall r, model_validate_discover p = Ok r <-> model_validate_discover q = Ok r).
Proof.
  split.
  - exact (result_match_perm ExecuteTestsParams_class p q
             (fun v => validate_failfast_maxfail_exclusive (build_execute v)) Hnd Hpq).
  - exact (result_match_perm DiscoverTestsParams_class p q
             (fun v => Ok (mkDiscoverTestsParams (get_str "path" v) (get_str "pattern" v)))
             Hnd Hpq).
Qed.

(* node_ids: one error per non-string element *)

Lemma str_items_all_strings (n : string) (i : nat) (l : list json) :
  nonstring_indices i l = [] ->
  l = map JStr (fst (str_items n i l)) /\ snd (str_items n i l) = [].
Proof.
  revert i. induction l as [| x l IH]; intros i H; simpl; [auto |].
  specialize (IH (S i)).
  destruct (str_items n (S i) l) as [ok errs]. simpl in IH.
  destruct x; simpl in H |- *; try discriminate.
  destruct (IH H) as [-> ->]. auto.
Qed.

Lemma str_items_error_locs (n : string) (i : nat) (l : list json) :
  map err_loc (snd (str_items n i l))
    = map (fun j => [LField n; LIndex j]) (nonstring_indices i l) /\
  Forall (fun e => err_type e = "string_type") (snd (str_items n i l)).
Proof.
  revert i. induction l as [| x l IH]; intros i; simpl; [auto |].
  specialize (IH (S i)).
  destruct (str_items n (S i) l) as [ok errs]. simpl in IH. destruct IH as [IH1 IH2].
  destruct x; simpl; rewrite ?IH1; auto.
Qed.

(** X8: a node_ids list whose elements are all strings validates to that
    list of strings; otherwise it is rejected with one string_type error per
    non-string element, located at ("node_ids", index). *)
Theorem node_ids_element_errors (l : list json) :
  (nonstring_indices 0 l = [] ->
     exists ss, l = map JStr ss /\ validate_field node_ids_field (JList l) = Ok (PStrList ss)) /\
  (nonstring_indices 0 l <> [] ->
     exists es, validate_field node_ids_field (JList l) = Err es /\
       map err_loc es = map (fun i => [LField "node_ids"; LIndex i]) (nonstring_indices 0 l) /\
       Forall (fun e => err_type e = "string_type") es).
Proof.
  unfold validate_field, validate_kind. simpl f_kind. simpl f_after. simpl f_name.
  pose proof (str_items_error_locs "node_ids" 0 l) as [Hl Ht].
  split.
  - intros H. destruct (str_items_all_strings "node_ids" 0 l H) as [Hm He].
    destruct (str_items "node_ids" 0 l) as [ok errs]. simpl in Hm, He. subst errs.
    exists ok. auto.
  - intros H. destruct (str_items "node_ids" 0 l) as [ok errs]. simpl in Hl, Ht.
    destruct errs as [| e es].
    + simpl in Hl. destruct (nonstring_indices 0 l); [contradiction | discriminate].
    + exists (e :: es). auto.
Qed.

(* Constructed values *)

(** X10: a ProtocolVersion can only be constructed from the supported
    version string, and then holds exactly that string. *)
Theorem protocol_version_only_supported (v : string) (pv : Handshake.ProtocolVersion)
  (H : Handshake.make_protocol_version v = Ok pv) :
  v = "2025-03-26" /\ Handshake.value pv = "2025-03-26".
Proof.
  unfold Handshake.make_protocol_version, Handshake.validate_supported_version in H.
  destruct (String.eqb_spec v "2025-03-26") as [-> | Hne]; simpl in H; [| discriminate].
  inversion H; subst. split; reflexivity.
Qed.

(** X11: a validated DiscoverTestsParams never holds a path with a ".."
    part. *)
Theorem validated_discover_no_traversal (payload : list (string * json))
  (p : DiscoverTestsParams) (H : model_validate_discover payload = Ok p) :
  forall s, path p = Some s -> ~ In ".." (PosixPath.parts s).
Proof.
  intros s Hs. unfold model_validate_discover in H.
  destruct (validate_fields DiscoverTestsParams_class payload) as [vals |] eqn:E;
    [| discriminate].
  injection H as <-. apply validate_fields_ok in E as [-> _].
  unfold get_str in Hs. simpl in Hs.
  destruct (field_result path_field payload) as [pv |] eqn:Hf; [| discriminate].
  destruct pv; try discriminate. injection Hs as <-.
  unfold field_result in Hf. simpl f_name in Hf.
  destruct (lookup "path" payload) as [v |]; [| discriminate].
  destruct v; try discriminate. cbn in Hf.
  destruct (in_strings ".." (PosixPath.parts s)) eqn:Hi; [discriminate |].
  intros Hin. apply in_strings_In in Hin. congruence.
Qed.

(* The model validator runs after the fields *)

Lemma collect_errs_located (fs : list Field) p :
  Forall (fun e => err_loc e <> []) (snd (collect fs p)).
Proof.
  induction fs as [| f fs IH]; simpl; [constructor |].
  destruct (collect fs p) as [vals errs]. simpl in IH.
  destruct (field_result f p) as [pv | es] eqn:Hf; simpl; [exact IH |].
  apply Forall_app. split; [| exact IH].
  apply field_result_err in Hf as [_ Hat]. revert Hat. apply Forall_impl.
  intros e He Hnil. unfold at_field in He. rewrite Hnil in He. discriminate.
Qed.

Lemma extra_errors_located (names : list string) p :
  Forall (fun e => err_loc e <> []) (extra_errors names p).
Proof.
  induction p as [| [k v] p IH]; simpl; [constructor |].
  destruct (in_strings k names); [exact IH |]. constructor; [discriminate | exact IH].
Qed.

Lemma validate_fields_err_located (m : ModelClass) p es :
  validate_fields m p = Err es -> Forall (fun e => err_loc e <> []) es.
Proof.
  unfold validate_fields. pose proof (collect_errs_located (mc_fields m) p) as Hc.
  destruct (collect (mc_fields m) p) as [vals errs]. simpl in Hc.
  destruct (app errs _) eqn:E; intros H; inversion H; subst.
  rewrite <- E. apply Forall_app. split; [exact Hc |].
  destruct (mc_extra_forbid m); [apply extra_errors_located | constructor].
Qed.

(** X13: the failfast/maxfail exclusivity error is only ever reported on its
    own, and only for a payload whose fields all validated. *)
Theorem exclusivity_error_only_after_fields (payload : list (string * json))
  (es : list ValErr) (H : model_validate_execute payload = Err es)
  (Hin : In exclusive_error es) :
  es = [exclusive_error] /\ is_ok (validate_fields ExecuteTestsParams_class payload) = true.
Proof.
  unfold model_validate_execute in H.
  destruct (validate_fields ExecuteTestsParams_class payload) as [vals | e] eqn:E.
  - split; [| reflexivity]. unfold validate_failfast_maxfail_exclusive in H.
    destruct (_ && _); inversion H; reflexivity.
  - exfalso. injection H as ->. apply validate_fields_err_located in E.
    apply (proj1 (Forall_forall _ _) E) in Hin. apply Hin. reflexivity.
Qed.


(* Witnesses *)

Lemma validated_execute_invariant_witness :
  model_validate_execute [("verbosity", JInt 1); ("timeout", JStr " 5 ")]
    = Ok (mkExecuteTestsParams None None None (Some 1%Z) None None None (Some 5%Z)) /\
  execute_invariant (mkExecuteTestsParams None None None (Some 1%Z) None None None (Some 5%Z)).
Proof.
  assert (H : model_validate_execute [("verbosity", JInt 1); ("timeout", JStr " 5 ")]
              = Ok (mkExecuteTestsParams None None None (Some 1%Z) None None None (Some 5%Z)))
    by reflexivity.
  split; [exact H | apply (validated_execute_invariant _ _ H)].
Defined.

Lemma model_dump_execute_roundtrip_witness :
  execute_invariant (mkExecuteTestsParams (Some ["tests/test_a.py::test_x"]) None None
                       (Some 0%Z) None (Some 3%Z) (Some true) (Some 30%Z)) /\
  model_validate_execute
    (model_dump_execute (mkExecuteTestsParams (Some ["tests/test_a.py::test_x"]) None None
                           (Some 0%Z) None (Some 3%Z) (Some true) (Some 30%Z)))
  = Ok (mkExecuteTestsParams (Some ["tests/test_a.py::test_x"]) None None
          (Some 0%Z) None (Some 3%Z) (Some true) (Some 30%Z)).
Proof.
  assert (H : execute_invariant (mkExecuteTestsParams (Some ["tests/test_a.py::test_x"]) None None
                                  (Some 0%Z) None (Some 3%Z) (Some true) (Some 30%Z))).
  { unfold execute_invariant. simpl.
    split; [intros z Hz; injection Hz as <-; lia |].
    split; [intros z Hz; injection Hz as <-; lia |].
    split; [intros z Hz; injection Hz as <-; lia | left; reflexivity]. }
  split; [exact H | apply (model_dump_execute_roundtrip _ H)].
Defined.

Lemma model_dump_discover_roundtrip_witness :
  (forall s, path (mkDiscoverTestsParams (Some "tests/unit") (Some "test_*.py")) = Some s ->
             ~ In ".." (PosixPath.split_on "/" s)) /\
  model_validate_discover
    (model_dump_discover (mkDiscoverTestsParams (Some "tests/unit") (Some "test_*.py")))
  = Ok (mkDiscoverTestsParams (Some "tests/unit") (Some "test_*.py")).
Proof.
  assert (H : forall s, path (mkDiscoverTestsParams (Some "tests/unit") (Some "test_*.py"))
                        = Some s -> ~ In ".." (PosixPath.split_on "/" s)).
  { intros s Hs. injection Hs as <-. simpl. intros [E | [E | []]]; discriminate E. }
  split; [exact H | apply (model_dump_discover_roundtrip _ H)].
Defined.

Lemma execute_null_is_absent_witness :
  In "markers" (field_names ExecuteTestsParams_class) /\
  lookup "markers" [("verbosity", JInt 1); ("markers", JNull)] = Some JNull /\
  model_validate_execute (remove_key "markers" [("verbosity", JInt 1); ("markers", JNull)])
  = model_validate_execute [("verbosity", JInt 1); ("markers", JNull)].
Proof.
  assert (Hk : In "markers" (field_names ExecuteTestsParams_class)).
  { simpl. right. left. reflexivity. }
  assert (Hn : lookup "markers" [("verbosity", JInt 1); ("markers", JNull)] = Some JNull)
    by reflexivity.
  split; [exact Hk | split; [exact Hn | apply (execute_null_is_absent _ _ Hk Hn)]].
Defined.

Lemma discover_null_is_absent_witness :
  In "path" (field_names DiscoverTestsParams_class) /\
  lookup "path" [("path", JNull); ("pattern", JStr "test_*.py")] = Some JNull /\
  model_validate_discover (remove_key "path" [("path", JNull); ("pattern", JStr "test_*.py")])
  = model_validate_discover [("path", JNull); ("pattern", JStr "test_*.py")].
Proof.
  assert (Hk : In "path" (field_names DiscoverTestsParams_class)).
  { simpl. left. reflexivity. }
  assert (Hn : lookup "path" [("path", JNull); ("pattern", JStr "test_*.py")] = Some JNull)
    by reflexivity.
  split; [exact Hk | split; [exact Hn | apply (discover_null_is_absent _ _ Hk Hn)]].
Defined.

Lemma validation_key_order_irrelevant_witness :
  NoDup (map fst [("verbosity", JInt 1); ("markers", JStr "slow")]) /\
  Permutation [("verbosity", JInt 1); ("markers", JStr "slow")]
              [("markers", JStr "slow"); ("verbosity", JInt 1)] /\
  (forall r, model_validate_execute [("verbosity", JInt 1); ("markers", JStr "slow")] = Ok r <->
             model_validate_execute [("markers", JStr "slow"); ("verbosity", JInt 1)] = Ok r).
Proof.
  assert (Hnd : NoDup (map fst [("verbosity", JInt 1); ("markers", JStr "slow")])).
  { simpl. constructor; [simpl; intros [E | []]; discriminate E |].
    constructor; [intros [] | constructor]. }
  assert (Hpq : Permutation [("verbosity", JInt 1); ("markers", JStr "slow")]
                            [("markers", JStr "slow"); ("verbosity", JInt 1)])
    by apply perm_swap.
  split; [exact Hnd | split; [exact Hpq | apply (validation_key_order_irrelevant _ _ Hnd Hpq)]].
Defined.

Lemma protocol_version_only_supported_witness :
  Handshake.make_protocol_version "2025-03-26" = Ok (Handshake.mkProtocolVersion "2025-03-26") /\
  "2025-03-26" = "2025-03-26" /\
  Handshake.value (Handshake.mkProtocolVersion "2025-03-26") = "2025-03-26".
Proof.
  assert (H : Handshake.make_protocol_version "2025-03-26"
              = Ok (Handshake.mkProtocolVersion "2025-03-26")) by reflexivity.
  split; [exact H | apply (protocol_version_only_supported _ _ H)].
Defined.

Lemma validated_discover_no_traversal_witness :
  model_validate_discover [("path", JStr "tests/unit")]
    = Ok (mkDiscoverTestsParams (Some "tests/unit") None) /\
  (forall s, path (mkDiscoverTestsParams (Some "tests/unit") None) = Some s ->
             ~ In ".." (PosixPath.parts s)).
Proof.
  assert (H : model_validate_discover [("path", JStr "tests/unit")]
              = Ok (mkDiscoverTestsParams (Some "tests/unit") None)) by reflexivity.
  split; [exact H | apply (validated_discover_no_traversal _ _ H)].
Defined.

Lemma exclusivity_error_only_after_fields_witness :
  model_validate_execute [("failfast", JBool true); ("maxfail", JInt 2)] = Err [exclusive_error] /\
  In exclusive_error [exclusive_error] /\
  [exclusive_error] = [exclusive_error] /\
  is_ok (validate_fields ExecuteTestsParams_class [("failfast", JBool true); ("maxfail", JInt 2)])
    = true.
Proof.
  assert (H : model_validate_execute [("failfast", JBool true); ("maxfail", JInt 2)]
              = Err [exclusive_error]) by reflexivity.
  assert (Hin : In exclusive_error [exclusive_error]) by (left; reflexivity).
  split; [exact H | split; [exact Hin | apply (exclusivity_error_only_after_fields _ _ H Hin)]].
Defined.

End ExtraProofs.
